(** * calculator.cpp: a console calculator, embedded and verified

    The program reads an operation selector and two operands from standard
    input, dispatches to one of [add], [subtract], [multiply], [divide] and
    prints the result or a diagnostic.

    Modelling choices.
    - [double] is IEEE 754 binary64, taken from the executable specification
      of the Standard Library ([SpecFloat], precision 53, emax 1024).
    - [cout] and [cin] are one world: the unread characters of standard
      input, the stream's failbit, and the trace of I/O actions in program
      order.  A [double] sent to [cout] is recorded as the value itself; the
      decimal rendering done by [operator<<] is not part of this program.
    - Formatted extraction ([cin >> x]) is the C++ library's; the program is
      verified against every implementation of it (class [Extractor]), and
      run on one concrete implementation for decimal literals.
    - [throw]/[try]/[catch] is an outcome that keeps the world: what was
      printed before a throw stays printed. *)

From Stdlib Require Import ZArith List String Ascii Bool Lia.
From Stdlib Require Import Floats.SpecFloat.
Import ListNotations.

Local Open Scope Z_scope.

(* ================================================================== *)
(** * The type double                                                  *)
(* ================================================================== *)

Module Double.

Definition prec : Z := 53.
Definition emax : Z := 1024.

Definition double : Type := spec_float.

Definition fadd : double -> double -> double := SFadd prec emax.
Definition fsub : double -> double -> double := SFsub prec emax.
Definition fmul : double -> double -> double := SFmul prec emax.
Definition fdiv : double -> double -> double := SFdiv prec emax.

(** [x == y] on doubles: false as soon as one side is a NaN, and the two
    zeros compare equal. *)
Definition feq (x y : double) : bool := SFeqb x y.

(** The implicit conversion int -> double (exact for every 32-bit int). *)
Definition of_int (n : Z) : double := binary_normalize prec emax n 0 false.

Definition is_finite (x : double) : bool :=
  match x with
  | S754_zero _ | S754_finite _ _ _ => true
  | S754_infinity _ | S754_nan => false
  end.

Definition is_zero (x : double) : bool :=
  match x with
  | S754_zero _ => true
  | _ => false
  end.

Definition well_formed (x : double) : bool := valid_binary prec emax x.

Definition pos_zero : double := S754_zero false.
Definition neg_zero : double := S754_zero true.

(** The smallest positive subnormal, 2^-1074. *)
Definition min_subnormal : double := S754_finite false 1 (-1074).

(** The largest finite double, (2^53 - 1) * 2^971. *)
Definition max_finite : double := S754_finite false 9007199254740991 971.

End Double.

Import Double.

(* ================================================================== *)
(** * Standard streams                                                 *)
(* ================================================================== *)

(** One item per I/O action of the program, in program order. *)
Inductive event : Type :=
| Put (s : string)        (* cout << "text" *)
| PutDouble (d : double)  (* cout << d *)
| Endl                    (* cout << endl *)
| ReadInt                 (* cin >> an int *)
| ReadDouble.             (* cin >> a double *)

Definition is_output (e : event) : bool :=
  match e with
  | Put _ | PutDouble _ | Endl => true
  | ReadInt | ReadDouble => false
  end.

Definition is_read (e : event) : bool := negb (is_output e).

(** [cin]: the characters not yet consumed and the failbit, which is what
    [cin.fail()] reports here (badbit, a failure of the device itself, does
    not arise on a character list). *)
Record istream : Type := { rdbuf : list ascii; failbit : bool }.

Record world : Type := { cin : istream; trace : list event }.

(** What a formatted extraction did on the unread input: the value it
    stores in the variable, whether it sets failbit, and the input left. *)
Record get_result (A : Type) : Type :=
  { got : A; err : bool; rest : list ascii }.

Arguments got {A} _.
Arguments err {A} _.
Arguments rest {A} _.

(** The library side of [cin >> x] on a stream in good state. *)
Class Extractor : Type :=
  { get_int : list ascii -> get_result Z;
    get_double : list ascii -> get_result double }.

(* ================================================================== *)
(** * Control: normal completion or a thrown runtime_error             *)
(* ================================================================== *)

Record runtime_error : Type := { what : string }.

Inductive outcome (A : Type) : Type :=
| Normal (a : A) (w : world)
| Thrown (e : runtime_error) (w : world).

Arguments Normal {A} a w.
Arguments Thrown {A} e w.

Definition M (A : Type) : Type := world -> outcome A.

Definition ret {A} (a : A) : M A := fun w => Normal a w.

Definition bind {A B} (m : M A) (k : A -> M B) : M B :=
  fun w =>
    match m w with
    | Normal a w' => k a w'
    | Thrown e w' => Thrown e w'
    end.

Definition throw {A} (e : runtime_error) : M A := fun w => Thrown e w.

Definition try_catch {A} (body : M A) (handler : runtime_error -> M A) : M A :=
  fun w =>
    match body w with
    | Normal a w' => Normal a w'
    | Thrown e w' => handler e w'
    end.

Declare Scope prog_scope.
Delimit Scope prog_scope with prog.
Notation "x <- m ;; k" := (bind m (fun x => k))
  (at level 61, m at next level, right associativity) : prog_scope.
Notation "m ;; k" := (bind m (fun _ => k))
  (at level 61, right associativity) : prog_scope.

Definition world_of {A} (o : outcome A) : world :=
  match o with Normal _ w | Thrown _ w => w end.

Definition value_of {A} (o : outcome A) : option A :=
  match o with Normal a _ => Some a | Thrown _ _ => None end.

Definition log (e : event) (w : world) : world :=
  {| cin := cin w; trace := trace w ++ [e] |}.

Definition emit (e : event) : M unit := fun w => Normal tt (log e w).

Definition cout_str (s : string) : M unit := emit (Put s).
Definition cout_double (d : double) : M unit := emit (PutDouble d).
Definition cout_endl : M unit := emit Endl.

Definition cin_fail : M bool := fun w => Normal (failbit (cin w)) w.

Section Extraction.

Context {X : Extractor}.

(** [cin >> v].  On a stream whose failbit is already set the sentry
    fails: nothing is consumed and the variable keeps its old value. *)
Definition extract {A} (ev : event) (get : list ascii -> get_result A)
    (old : A) : M A :=
  fun w =>
    let w := log ev w in
    if failbit (cin w) then Normal old w
    else
      let r := get (rdbuf (cin w)) in
      Normal (got r)
             {| cin := {| rdbuf := rest r; failbit := err r |};
                trace := trace w |}.

Definition cin_int : Z -> M Z := extract ReadInt get_int.
Definition cin_double : double -> M double := extract ReadDouble get_double.

End Extraction.

(* ================================================================== *)
(** * The program                                                      *)
(* ================================================================== *)

Local Open Scope string_scope.
Local Open Scope prog_scope.

Definition add (num1 num2 : double) : M unit :=
  cout_str "Result: " ;; cout_double (fadd num1 num2) ;; cout_endl.

Definition subtract (num1 num2 : double) : M unit :=
  cout_str "Result: " ;; cout_double (fsub num1 num2) ;; cout_endl.

Definition multiply (num1 num2 : double) : M unit :=
  cout_str "Result: " ;; cout_double (fmul num1 num2) ;; cout_endl.

Definition divide (num1 num2 : double) : M unit :=
  if feq num2 (of_int 0) then
    throw {| what := "Error! Division by zero." |}
  else
    cout_str "Result: " ;; cout_double (fdiv num1 num2) ;; cout_endl.

(** [switch (choice)]: the label control jumps to. *)
Inductive label : Type := case_1 | case_2 | case_3 | case_4 | default.

Definition switch (choice : Z) : label :=
  match choice with
  | 1 => case_1
  | 2 => case_2
  | 3 => case_3
  | 4 => case_4
  | _ => default
  end.

(** The body of the [try] block.  Every case ends in [break], so exactly
    the statements of the selected label run. *)
Definition dispatch (choice : Z) (num1 num2 : double) : M unit :=
  match switch choice with
  | case_1 => add num1 num2
  | case_2 => subtract num1 num2
  | case_3 => multiply num1 num2
  | case_4 => divide num1 num2
  | default => cout_str "Invalid choice" ;; cout_endl
  end.

(** The [catch (const runtime_error& e)] clause. *)
Definition report (e : runtime_error) : M unit :=
  cout_str (what e) ;; cout_endl.

(** The whole [try { switch ... } catch ...] statement. *)
Definition guarded_dispatch (choice : Z) (num1 num2 : double) : M unit :=
  try_catch (dispatch choice num1 num2) report.

(** The locals of [main] are declared without initialiser; their contents
    before the extractions are whatever the stack holds. *)
Record locals : Type := { choice0 : Z; num1_0 : double; num2_0 : double }.

Section Main.

Context {X : Extractor}.

Definition main (l : locals) : M Z :=
  cout_str "Select operation:" ;; cout_endl ;;
  cout_str "1. Add" ;; cout_endl ;;
  cout_str "2. Subtract" ;; cout_endl ;;
  cout_str "3. Multiply" ;; cout_endl ;;
  cout_str "4. Divide" ;; cout_endl ;;
  cout_str "Enter choice (1/2/3/4): " ;;
  choice <- cin_int (choice0 l) ;;
  failed <- cin_fail ;;
  if failed || (choice <? 1)%Z || (choice >? 4)%Z then
    cout_str "Invalid input" ;; cout_endl ;;
    ret 1%Z
  else
    cout_str "Enter first number: " ;;
    num1 <- cin_double (num1_0 l) ;;
    failed <- cin_fail ;;
    if failed then
      cout_str "Invalid input" ;; cout_endl ;;
      ret 1%Z
    else
      cout_str "Enter second number: " ;;
      num2 <- cin_double (num2_0 l) ;;
      failed <- cin_fail ;;
      if failed then
        cout_str "Invalid input" ;; cout_endl ;;
        ret 1%Z
      else
        guarded_dispatch choice num1 num2 ;;
        ret 0%Z.

(** A process starts with [cin] in good state and nothing printed. *)
Definition start (input : list ascii) : world :=
  {| cin := {| rdbuf := input; failbit := false |}; trace := [] |}.

Definition run (l : locals) (input : list ascii) : outcome Z :=
  main l (start input).

End Main.

(* ================================================================== *)
(** * A concrete extractor: decimal literals                           *)
(* ================================================================== *)

(** Formatted extraction as the C++ library does it for the forms a user
    of this program types: leading white space is skipped, then an optional
    sign and decimal digits (for a double also a fraction and an exponent)
    are consumed as far as they go and converted, rounding to nearest even.
    No digit, or an exponent mark without digits, sets failbit and stores
    zero; a value out of range sets failbit and stores the nearest limit. *)
Module Decimal.

Local Open Scope Z_scope.

Definition is_space (c : ascii) : bool :=
  let n := Z.of_N (N_of_ascii c) in
  (n =? 32) || ((9 <=? n) && (n <=? 13)).

Fixpoint skipws (s : list ascii) : list ascii :=
  match s with
  | c :: s' => if is_space c then skipws s' else s
  | [] => []
  end.

Definition digit (c : ascii) : option Z :=
  let n := Z.of_N (N_of_ascii c) in
  if (48 <=? n) && (n <=? 57) then Some (n - 48) else None.

(** Consumes a run of digits: the number read on top of [acc], how many
    digits there were, and what follows. *)
Fixpoint digits (acc cnt : Z) (s : list ascii) : Z * Z * list ascii :=
  match s with
  | c :: s' =>
      match digit c with
      | Some d => digits (10 * acc + d) (cnt + 1) s'
      | None => (acc, cnt, s)
      end
  | [] => (acc, cnt, [])
  end.

Definition sign (s : list ascii) : bool * list ascii :=
  match s with
  | "-"%char :: s' => (true, s')
  | "+"%char :: s' => (false, s')
  | _ => (false, s)
  end.

Definition INT_MAX : Z := 2147483647.
Definition INT_MIN : Z := -2147483648.

Definition scan_int (s : list ascii) : get_result Z :=
  let (neg, s1) := sign (skipws s) in
  let '(m, n, s2) := digits 0 0 s1 in
  if n =? 0 then {| got := 0; err := true; rest := s2 |}
  else
    let v := if neg then - m else m in
    if v <? INT_MIN then {| got := INT_MIN; err := true; rest := s2 |}
    else if v >? INT_MAX then {| got := INT_MAX; err := true; rest := s2 |}
    else {| got := v; err := false; rest := s2 |}.

(** The double nearest to [(-1)^neg * m * 10^e]. *)
Definition decimal (neg : bool) (m e : Z) : double :=
  match m with
  | Zpos p =>
      if 0 <=? e
      then binary_normalize prec emax
             ((if neg then -1 else 1) * (m * 10 ^ e)) 0 false
      else SFdiv prec emax (S754_finite neg p 0)
                           (S754_finite false (Z.to_pos (10 ^ (- e))) 0)
  | _ => S754_zero neg
  end.

(** An optional exponent part; [None] when the mark is there and its
    digits are not. *)
Definition exponent (s : list ascii) : option Z * list ascii :=
  let scan t :=
    let (eneg, t1) := sign t in
    let '(e, n, t2) := digits 0 0 t1 in
    if n =? 0 then (None, t2)
    else (Some (if eneg then - e else e), t2) in
  match s with
  | "e"%char :: t => scan t
  | "E"%char :: t => scan t
  | _ => (Some 0, s)
  end.

Definition scan_double (s : list ascii) : get_result double :=
  let (neg, s1) := sign (skipws s) in
  let '(mi, ni, s2) := digits 0 0 s1 in
  let '(m, nf, s3) :=
    match s2 with
    | "."%char :: t => digits mi 0 t
    | _ => (mi, 0, s2)
    end in
  if ni + nf =? 0 then {| got := S754_zero false; err := true; rest := s3 |}
  else
    match exponent s3 with
    | (None, s4) => {| got := S754_zero false; err := true; rest := s4 |}
    | (Some e, s4) =>
        match decimal neg m (e - nf) with
        | S754_infinity sg =>
            {| got := if sg then SFopp max_finite else max_finite;
               err := true; rest := s4 |}
        | v => {| got := v; err := false; rest := s4 |}
        end
    end.

#[export] Instance extractor : Extractor :=
  {| get_int := scan_int; get_double := scan_double |}.

(** The characters typed at a terminal: each answer followed by Enter. *)
Definition newline : ascii := ascii_of_nat 10.

Fixpoint typed (answers : list string) : list ascii :=
  match answers with
  | [] => []
  | a :: more => list_ascii_of_string a ++ newline :: typed more
  end.

End Decimal.


(* ================================================================== *)
(** * Vocabulary of the statements                                     *)
(* ================================================================== *)

Local Open Scope list_scope.

(** What reached standard output, and which extractions were attempted. *)
Definition stdout (w : world) : list event := filter is_output (trace w).
Definition reads (w : world) : list event := filter is_read (trace w).

Definition logs (es : list event) (w : world) : world :=
  {| cin := cin w; trace := trace w ++ es |}.

Definition menu : list event :=
  [Put "Select operation:"; Endl;
   Put "1. Add"; Endl;
   Put "2. Subtract"; Endl;
   Put "3. Multiply"; Endl;
   Put "4. Divide"; Endl;
   Put "Enter choice (1/2/3/4): "].

Definition ask_first : event := Put "Enter first number: ".
Definition ask_second : event := Put "Enter second number: ".

Definition result_line (v : double) : list event :=
  [Put "Result: "; PutDouble v; Endl].
Definition invalid_input : list event := [Put "Invalid input"; Endl].
Definition division_error : list event :=
  [Put "Error! Division by zero."; Endl].
Definition invalid_choice : list event := [Put "Invalid choice"; Endl].

(** A text sent to [cout] that opens a result report. *)
Definition begins_result (e : event) : bool :=
  match e with
  | Put s => String.prefix "Result:" s
  | _ => false
  end.

Definition result_lines (out : list event) : nat :=
  List.length (filter begins_result out).

Definition prints_double (e : event) : bool :=
  match e with
  | PutDouble _ => true
  | _ => false
  end.

(** The value the chosen operation has on the operands. *)
Definition expected (s : Z) (a b : double) : double :=
  match s with
  | 1 => fadd a b
  | 2 => fsub a b
  | 3 => fmul a b
  | _ => fdiv a b
  end.

Section Tokens.

Context {X : Extractor}.

(** The three extractions a complete run performs, each on what the
    previous one left unread. *)
Definition selector (input : list ascii) : get_result Z :=
  get_int input.
Definition operand1 (input : list ascii) : get_result double :=
  get_double (rest (selector input)).
Definition operand2 (input : list ascii) : get_result double :=
  get_double (rest (operand1 input)).

Definition in_range (s : Z) : bool := (1 <=? s)%Z && (s <=? 4)%Z.

Definition selector_valid (input : list ascii) : bool :=
  negb (err (selector input)) && in_range (got (selector input)).

(** Some token the program gets to read is rejected. *)
Definition parse_failure (input : list ascii) : bool :=
  negb (selector_valid input)
  || err (operand1 input)
  || err (operand2 input).

(** The worlds in which [main] stops. *)
Definition stopped_at_selector (input : list ascii) : world :=
  {| cin := {| rdbuf := rest (selector input);
               failbit := err (selector input) |};
     trace := menu ++ [ReadInt] ++ invalid_input |}.

Definition stopped_at_first (input : list ascii) : world :=
  {| cin := {| rdbuf := rest (operand1 input); failbit := true |};
     trace := menu ++ [ReadInt; ask_first; ReadDouble] ++ invalid_input |}.

Definition stopped_at_second (input : list ascii) : world :=
  {| cin := {| rdbuf := rest (operand2 input); failbit := true |};
     trace := menu ++ [ReadInt; ask_first; ReadDouble; ask_second; ReadDouble]
                   ++ invalid_input |}.

(** The world in which the [try] block is entered. *)
Definition at_dispatch (input : list ascii) : world :=
  {| cin := {| rdbuf := rest (operand2 input); failbit := false |};
     trace := menu ++ [ReadInt; ask_first; ReadDouble; ask_second; ReadDouble] |}.

End Tokens.

(** Inputs used to exercise the statements on the decimal extractor. *)
Module Scenario.

Import Decimal.

(** Some contents for the uninitialised locals. *)
Definition garbage : locals :=
  {| choice0 := 77; num1_0 := S754_nan; num2_0 := S754_infinity true |}.

Definition other_garbage : locals :=
  {| choice0 := 4; num1_0 := pos_zero; num2_0 := pos_zero |}.

Definition add_2_3 : list ascii := typed ["1"; "2"; "3"].
Definition sub_5_3 : list ascii := typed ["2"; "5"; "3"].
Definition mul_4_2p5 : list ascii := typed ["3"; "4"; "2.5"].
Definition div_10_4 : list ascii := typed ["4"; "10"; "4"].
Definition div_10_0 : list ascii := typed ["4"; "10"; "0"].
Definition div_1_neg0 : list ascii := typed ["4"; "1"; "-0.0"].
Definition div_1_tiny : list ascii := typed ["4"; "1"; "4.9e-324"].
Definition choice_5 : list ascii := typed ["5"; "1"; "2"].
Definition choice_word : list ascii := typed ["add"; "1"; "2"].
Definition first_abc : list ascii := typed ["1"; "abc"; "2"].
Definition second_abc : list ascii := typed ["1"; "2"; "abc"].

Definition two : double := S754_finite false 4503599627370496 (-51).
Definition two_and_a_half : double := S754_finite false 5629499534213120 (-51).
Definition three : double := S754_finite false 6755399441055744 (-51).
Definition five : double := S754_finite false 5629499534213120 (-50).
Definition ten : double := S754_finite false 5629499534213120 (-49).
Definition one : double := S754_finite false 4503599627370496 (-52).
Definition four : double := S754_finite false 4503599627370496 (-50).

(** The world of a process that was given no input and printed nothing. *)
Definition idle : world :=
  {| cin := {| rdbuf := []; failbit := false |}; trace := [] |}.

End Scenario.

(** More vocabulary: NaN, unary minus, and the state an extraction leaves
    the stream in. *)
Definition is_nan (x : double) : bool :=
  match x with
  | S754_nan => true
  | _ => false
  end.


Definition left_by {A} (r : get_result A) : istream :=
  {| rdbuf := rest r; failbit := err r |}.

(* ================================================================== *)
(** * Floating-point facts                                             *)
(* ================================================================== *)

Lemma of_int_0 : of_int 0 = pos_zero.
Proof. reflexivity. Qed.

(** [x == 0] holds for the two zeros and for nothing else. *)
Lemma feq_zero_iff_is_zero (x : double) : feq x (of_int 0) = is_zero x.
Proof.
  rewrite of_int_0. unfold feq, SFeqb, pos_zero.
  destruct x as [s | s | | s m e]; simpl; try reflexivity;
    destruct s; reflexivity.
Qed.

Lemma is_zero_cases (x : double) :
  is_zero x = true <-> x = pos_zero \/ x = neg_zero.
Proof.
  unfold pos_zero, neg_zero. split.
  - destruct x as [[|] | | |]; simpl; intros H; try discriminate H; auto.
  - intros [-> | ->]; reflexivity.
Qed.

(* ================================================================== *)
(** * The monad and the stream operations                              *)
(* ================================================================== *)

Lemma logs_nil (w : world) : logs [] w = w.
Proof. destruct w as [c t]. unfold logs. simpl. now rewrite app_nil_r. Qed.

Lemma logs_logs (es fs : list event) (w : world) :
  logs fs (logs es w) = logs (es ++ fs) w.
Proof. unfold logs. simpl. now rewrite app_assoc. Qed.

Lemma log_logs (e : event) (w : world) : log e w = logs [e] w.
Proof. reflexivity. Qed.

Lemma bind_normal {A B} (m : M A) (k : A -> M B) (w w' : world) (a : A) :
  m w = Normal a w' -> bind m k w = k a w'.
Proof. unfold bind. now intros ->. Qed.

Lemma bind_thrown {A B} (m : M A) (k : A -> M B) (w w' : world) e :
  m w = Thrown e w' -> bind m k w = Thrown e w'.
Proof. unfold bind. now intros ->. Qed.

Lemma emit_run (e : event) (w : world) : emit e w = Normal tt (logs [e] w).
Proof. reflexivity. Qed.

(** Printing a result line: three items appended, nothing thrown. *)
Lemma print_result (v : double) (w : world) :
  (cout_str "Result: " ;; cout_double v ;; cout_endl) w
  = Normal tt (logs (result_line v) w).
Proof.
  unfold bind, cout_str, cout_double, cout_endl, emit, log, logs, result_line.
  simpl. now rewrite <- !app_assoc.
Qed.

Lemma add_run (a b : double) (w : world) :
  add a b w = Normal tt (logs (result_line (fadd a b)) w).
Proof. apply print_result. Qed.

Lemma subtract_run (a b : double) (w : world) :
  subtract a b w = Normal tt (logs (result_line (fsub a b)) w).
Proof. apply print_result. Qed.

Lemma multiply_run (a b : double) (w : world) :
  multiply a b w = Normal tt (logs (result_line (fmul a b)) w).
Proof. apply print_result. Qed.

Lemma divide_nonzero (a b : double) (w : world) :
  is_zero b = false ->
  divide a b w = Normal tt (logs (result_line (fdiv a b)) w).
Proof.
  intros Hb. unfold divide. rewrite feq_zero_iff_is_zero, Hb.
  apply print_result.
Qed.

Lemma divide_zero (a b : double) (w : world) :
  is_zero b = true ->
  divide a b w = Thrown {| what := "Error! Division by zero." |} w.
Proof.
  intros Hb. unfold divide. rewrite feq_zero_iff_is_zero, Hb. reflexivity.
Qed.

Lemma report_run (e : runtime_error) (w : world) :
  report e w = Normal tt (logs [Put (what e); Endl] w).
Proof.
  unfold report, bind, cout_str, cout_endl, emit, log, logs. simpl.
  now rewrite <- app_assoc.
Qed.

(** The selected label, for a selector that passed validation. *)
Lemma switch_in_range (s : Z) :
  (1 <= s <= 4)%Z ->
  (s = 1 /\ switch s = case_1) \/ (s = 2 /\ switch s = case_2) \/
  (s = 3 /\ switch s = case_3) \/ (s = 4 /\ switch s = case_4).
Proof.
  intros H.
  assert (s = 1 \/ s = 2 \/ s = 3 \/ s = 4)%Z as [-> | [-> | [-> | ->]]] by lia;
    auto 6.
Qed.

Lemma in_range_dec (s : Z) : {(1 <= s <= 4)%Z} + {~ (1 <= s <= 4)%Z}.
Proof.
  destruct (Z_le_dec 1 s), (Z_le_dec s 4); (left; lia) || (right; lia).
Qed.

(** What the guarded dispatch does on a validated selector. *)
Lemma guarded_dispatch_result (s : Z) (a b : double) (w : world) :
  (1 <= s <= 4)%Z ->
  (s = 4%Z -> is_zero b = false) ->
  guarded_dispatch s a b w = Normal tt (logs (result_line (expected s a b)) w).
Proof.
  intros Hs Hb. unfold guarded_dispatch, try_catch, dispatch.
  destruct (switch_in_range s Hs) as [[-> ->] | [[-> ->] | [[-> ->] | [-> ->]]]];
    simpl expected.
  - now rewrite add_run.
  - now rewrite subtract_run.
  - now rewrite multiply_run.
  - now rewrite divide_nonzero by auto.
Qed.

Lemma guarded_dispatch_zero (a b : double) (w : world) :
  is_zero b = true ->
  guarded_dispatch 4 a b w = Normal tt (logs division_error w).
Proof.
  intros Hb. unfold guarded_dispatch, try_catch, dispatch, switch.
  rewrite divide_zero by assumption. now rewrite report_run.
Qed.

(* ================================================================== *)
(** * Runs of the program                                              *)
(* ================================================================== *)

Section Runs.

Context {X : Extractor}.

(** The validation at line 39 accepts exactly the valid selectors. *)
Lemma validation_test (input : list ascii) :
  err (selector input)
  || (got (selector input) <? 1)%Z || (got (selector input) >? 4)%Z
  = negb (selector_valid input).
Proof.
  unfold selector_valid, in_range.
  destruct (err (selector input)); simpl; [reflexivity |].
  rewrite Z.gtb_ltb.
  destruct (Z.ltb_spec (got (selector input)) 1),
           (Z.ltb_spec 4 (got (selector input))),
           (Z.leb_spec 1 (got (selector input))),
           (Z.leb_spec (got (selector input)) 4); simpl; try reflexivity; lia.
Qed.

(** [main], run from the start of a process, as one case analysis on the
    three extractions. *)
Lemma run_cases (l : locals) (input : list ascii) :
  run l input =
    if negb (selector_valid input) then Normal 1%Z (stopped_at_selector input)
    else if err (operand1 input) then Normal 1%Z (stopped_at_first input)
    else if err (operand2 input) then Normal 1%Z (stopped_at_second input)
    else (guarded_dispatch (got (selector input)) (got (operand1 input))
                           (got (operand2 input)) ;; ret 0%Z)
           (at_dispatch input).
Proof.
  rewrite <- validation_test.
  unfold run, main, start, bind, cout_str, cout_endl, emit, log,
    cin_int, cin_double, extract, cin_fail, ret. simpl.
  fold (selector input).
  destruct (err (selector input)) eqn:E0; simpl.
  { unfold stopped_at_selector. now rewrite E0. }
  destruct ((got (selector input) <? 1)%Z || (got (selector input) >? 4)%Z);
    simpl.
  { unfold stopped_at_selector. now rewrite E0. }
  fold (operand1 input).
  destruct (err (operand1 input)) eqn:E1; simpl; [reflexivity |].
  fold (operand2 input).
  destruct (err (operand2 input)) eqn:E2; simpl; reflexivity.
Qed.

End Runs.

(** On a validated selector the [try]/[catch] statement adds a result
    report or the division diagnostic, and nothing else. *)
Lemma guarded_dispatch_in_range (s : Z) (a b : double) (w : world) :
  (1 <= s <= 4)%Z ->
  exists es,
    guarded_dispatch s a b w = Normal tt (logs es w) /\
    (es = result_line (expected s a b) \/ es = division_error).
Proof.
  intros Hs. destruct (is_zero b) eqn:Hb.
  - destruct (Z.eq_dec s 4) as [-> | Hn].
    + exists division_error. split; [now apply guarded_dispatch_zero | auto].
    + exists (result_line (expected s a b)).
      split; [apply guarded_dispatch_result; [assumption | contradiction] | auto].
  - exists (result_line (expected s a b)).
    split; [apply guarded_dispatch_result; auto | auto].
Qed.

Lemma switch_out_of_range (s : Z) : ~ (1 <= s <= 4)%Z -> switch s = default.
Proof.
  intros Hs. unfold switch.
  destruct s as [| p | p]; try reflexivity.
  do 3 (try destruct p as [p | p |]); try reflexivity; lia.
Qed.

(** The [try]/[catch] statement never throws, and adds one of three
    reports to the trace. *)
Lemma guarded_dispatch_total (s : Z) (a b : double) (w : world) :
  exists es,
    guarded_dispatch s a b w = Normal tt (logs es w) /\
    (es = result_line (expected s a b) \/ es = division_error
     \/ es = invalid_choice).
Proof.
  destruct (in_range_dec s) as [Hs | Hs].
  - destruct (guarded_dispatch_in_range s a b w Hs) as (es & Hd & [H | H]);
      exists es; auto.
  - exists invalid_choice. split; [| auto].
    unfold guarded_dispatch, try_catch, dispatch.
    rewrite (switch_out_of_range s Hs).
    unfold bind, cout_str, cout_endl, emit, log, logs, invalid_choice. simpl.
    now rewrite <- app_assoc.
Qed.

Section Outcomes.

Context {X : Extractor}.

Lemma selector_valid_spec (input : list ascii) :
  selector_valid input = true <->
  err (selector input) = false /\ (1 <= got (selector input) <= 4)%Z.
Proof.
  unfold selector_valid, in_range.
  rewrite !andb_true_iff, negb_true_iff, !Z.leb_le. tauto.
Qed.

Lemma selector_invalid_spec (input : list ascii) :
  selector_valid input = false <->
  err (selector input) = true \/ (got (selector input) < 1)%Z
  \/ (got (selector input) > 4)%Z.
Proof.
  unfold selector_valid, in_range.
  rewrite !andb_false_iff, negb_false_iff, !Z.leb_gt, Z.gt_lt_iff. tauto.
Qed.

(** A run whose three extractions succeed reaches the [try] block, and ends
    with exit code 0 in the world the guarded dispatch leaves. *)
Lemma run_reaches_dispatch (l : locals) (input : list ascii) (w : world) :
  selector_valid input = true ->
  err (operand1 input) = false ->
  err (operand2 input) = false ->
  guarded_dispatch (got (selector input)) (got (operand1 input))
                   (got (operand2 input)) (at_dispatch input) = Normal tt w ->
  run l input = Normal 0%Z w.
Proof.
  intros Hs H1 H2 Hd. rewrite run_cases, Hs, H1, H2. simpl.
  unfold bind. now rewrite Hd.
Qed.

Lemma run_stops_at_selector (l : locals) (input : list ascii) :
  selector_valid input = false ->
  run l input = Normal 1%Z (stopped_at_selector input).
Proof. intros Hs. now rewrite run_cases, Hs. Qed.

Lemma run_stops_at_first (l : locals) (input : list ascii) :
  selector_valid input = true ->
  err (operand1 input) = true ->
  run l input = Normal 1%Z (stopped_at_first input).
Proof. intros Hs H1. now rewrite run_cases, Hs, H1. Qed.

Lemma run_stops_at_second (l : locals) (input : list ascii) :
  selector_valid input = true ->
  err (operand1 input) = false ->
  err (operand2 input) = true ->
  run l input = Normal 1%Z (stopped_at_second input).
Proof. intros Hs H1 H2. now rewrite run_cases, Hs, H1, H2. Qed.

(** [main] always returns: no exception escapes it. *)
Lemma run_returns (l : locals) (input : list ascii) :
  exists code w, run l input = Normal code w /\ (code = 0 \/ code = 1)%Z.
Proof.
  rewrite run_cases.
  destruct (selector_valid input); simpl; [| eauto].
  destruct (err (operand1 input)); [eauto |].
  destruct (err (operand2 input)); [eauto |].
  destruct (guarded_dispatch_total (got (selector input))
              (got (operand1 input)) (got (operand2 input))
              (at_dispatch input)) as (es & Hd & _).
  unfold bind. rewrite Hd. unfold ret. eauto.
Qed.

(** The output of a run that reached the [try] block. *)
Lemma stdout_at_dispatch (input : list ascii) (es : list event) :
  stdout (logs es (at_dispatch input))
  = menu ++ [ask_first; ask_second] ++ filter is_output es.
Proof.
  unfold stdout, logs, at_dispatch. cbn [trace].
  rewrite !filter_app. reflexivity.
Qed.

Lemma result_lines_app (xs ys : list event) :
  result_lines (xs ++ ys) = (result_lines xs + result_lines ys)%nat.
Proof. unfold result_lines. now rewrite filter_app, length_app. Qed.

Lemma result_lines_prompts : result_lines (menu ++ [ask_first; ask_second]) = 0%nat.
Proof. reflexivity. Qed.

Lemma result_lines_result (v : double) : result_lines (result_line v) = 1%nat.
Proof. reflexivity. Qed.

(** C1 -- For every selector s in {1,2,3,4} and all finite operands a and
    b (b nonzero when s = 4), the program prints exactly one result report
    "Result: " v end-of-line, where v is a+b for s=1, a-b for s=2, a*b for
    s=3 and a/b for s=4 in binary64 arithmetic.  The report follows the
    menu and the three prompts (which end without a newline), nothing else
    is printed, and the exit code is 0. *)
Theorem valid_run_prints_result
    (l : locals) (input : list ascii) (s : Z) (a b : double) :
  err (selector input) = false -> got (selector input) = s ->
  (1 <= s <= 4)%Z ->
  err (operand1 input) = false -> got (operand1 input) = a ->
  err (operand2 input) = false -> got (operand2 input) = b ->
  is_finite a = true -> is_finite b = true ->
  (s = 4%Z -> is_zero b = false) ->
  stdout (world_of (run l input))
    = menu ++ [ask_first; ask_second] ++ result_line (expected s a b)
  /\ result_lines (stdout (world_of (run l input))) = 1%nat
  /\ (s = 1%Z -> expected s a b = fadd a b)
  /\ (s = 2%Z -> expected s a b = fsub a b)
  /\ (s = 3%Z -> expected s a b = fmul a b)
  /\ (s = 4%Z -> expected s a b = fdiv a b)
  /\ value_of (run l input) = Some 0%Z.
Proof.
  intros E0 G0 Hs E1 G1 E2 G2 _ _ Hb.
  assert (Hv : selector_valid input = true)
    by (apply selector_valid_spec; rewrite G0; auto).
  rewrite (run_reaches_dispatch l input
             (logs (result_line (expected s a b)) (at_dispatch input)) Hv E1 E2)
    by (rewrite G0, G1, G2; now apply guarded_dispatch_result).
  cbn [world_of value_of]. rewrite stdout_at_dispatch.
  split; [reflexivity |]. split.
  - now rewrite app_assoc, result_lines_app, result_lines_prompts.
  - repeat split; try (intros ->; reflexivity).
Qed.

(** C2 -- For selector 4 and a second operand equal to zero, the program
    prints "Error! Division by zero." and no text that begins a result
    report. *)
Theorem division_by_zero_reported
    (l : locals) (input : list ascii) :
  selector_valid input = true -> got (selector input) = 4%Z ->
  err (operand1 input) = false ->
  err (operand2 input) = false -> is_zero (got (operand2 input)) = true ->
  stdout (world_of (run l input))
    = menu ++ [ask_first; ask_second] ++ division_error
  /\ result_lines (stdout (world_of (run l input))) = 0%nat.
Proof.
  intros Hv G0 E1 E2 Hz.
  rewrite (run_reaches_dispatch l input
             (logs division_error (at_dispatch input)) Hv E1 E2)
    by (rewrite G0; now apply guarded_dispatch_zero).
  cbn [world_of]. rewrite stdout_at_dispatch. split; reflexivity.
Qed.

(** C3 -- The exit code is 0 whenever a result report is printed, and 1
    whenever the selector or an operand fails to parse or the selector is
    out of range; in the division-by-zero case the diagnostic is printed
    and the exit code is still 0. *)
Theorem exit_codes (l : locals) (input : list ascii) :
  (result_lines (stdout (world_of (run l input))) <> 0%nat ->
   value_of (run l input) = Some 0%Z)
  /\ (parse_failure input = true -> value_of (run l input) = Some 1%Z)
  /\ (parse_failure input = false ->
      got (selector input) = 4%Z ->
      is_zero (got (operand2 input)) = true ->
      stdout (world_of (run l input))
        = menu ++ [ask_first; ask_second] ++ division_error
      /\ value_of (run l input) = Some 0%Z).
Proof.
  unfold parse_failure. rewrite run_cases.
  destruct (selector_valid input) eqn:Hv; simpl negb; cbv iota.
  2:{ repeat split; try discriminate; auto.
      intros H; exfalso; apply H; reflexivity. }
  destruct (err (operand1 input)) eqn:E1.
  { repeat split; try discriminate; auto.
    intros H; exfalso; apply H; reflexivity. }
  destruct (err (operand2 input)) eqn:E2.
  { repeat split; try discriminate; auto.
    intros H; exfalso; apply H; reflexivity. }
  split; [| split].
  - intros _.
    destruct (guarded_dispatch_total (got (selector input))
                (got (operand1 input)) (got (operand2 input))
                (at_dispatch input)) as (es & Hd & _).
    unfold bind. now rewrite Hd.
  - discriminate.
  - intros _ G0 Hz. rewrite G0. unfold bind.
    rewrite guarded_dispatch_zero by assumption.
    cbn [ret world_of value_of]. rewrite stdout_at_dispatch. auto.
Qed.

(** C4 -- If the selector fails to parse as an integer, or parses to a
    value outside {1,2,3,4}, the program prints "Invalid input" and ends
    with the non-zero exit code 1; the selector's is the only extraction
    attempted, and the input after it is left unread. *)
Theorem invalid_selector_stops (l : locals) (input : list ascii) :
  err (selector input) = true \/ (got (selector input) < 1)%Z
    \/ (got (selector input) > 4)%Z ->
  stdout (world_of (run l input)) = menu ++ invalid_input
  /\ reads (world_of (run l input)) = [ReadInt]
  /\ rdbuf (cin (world_of (run l input))) = rest (selector input)
  /\ value_of (run l input) = Some 1%Z
  /\ value_of (run l input) <> Some 0%Z.
Proof.
  intros H. apply selector_invalid_spec in H.
  rewrite run_stops_at_selector by assumption.
  repeat split. discriminate.
Qed.

(** C5 -- For a valid selector followed by a first operand that does not
    parse, the program prints "Invalid input" and stops without attempting
    the second extraction; a second operand that does not parse likewise
    yields "Invalid input"; in neither case is a result report printed. *)
Theorem invalid_operand_stops (l : locals) (input : list ascii) :
  selector_valid input = true ->
  (err (operand1 input) = true ->
     stdout (world_of (run l input)) = menu ++ [ask_first] ++ invalid_input
     /\ reads (world_of (run l input)) = [ReadInt; ReadDouble]
     /\ rdbuf (cin (world_of (run l input))) = rest (operand1 input)
     /\ result_lines (stdout (world_of (run l input))) = 0%nat
     /\ value_of (run l input) = Some 1%Z)
  /\ (err (operand1 input) = false -> err (operand2 input) = true ->
     stdout (world_of (run l input))
       = menu ++ [ask_first; ask_second] ++ invalid_input
     /\ reads (world_of (run l input)) = [ReadInt; ReadDouble; ReadDouble]
     /\ result_lines (stdout (world_of (run l input))) = 0%nat
     /\ value_of (run l input) = Some 1%Z).
Proof.
  intros Hv. split.
  - intros E1. rewrite run_stops_at_first by assumption. repeat split.
  - intros E1 E2. rewrite run_stops_at_second by assumption. repeat split.
Qed.

End Outcomes.

(* ================================================================== *)
(** * The dispatcher and divide                                        *)
(* ================================================================== *)

Lemma in_logs_trace (e : event) (es : list event) (w : world) :
  In e (trace (logs es w)) <-> In e (trace w) \/ In e es.
Proof. unfold logs. cbn [trace]. apply in_app_iff. Qed.

(** C6 -- For a selector that passed validation (it lies in {1,2,3,4}) the
    fallback branch that prints "Invalid choice" is not taken: the switch
    selects the one case label whose constant equals the selector, and the
    dispatch adds no "Invalid choice" to what was printed. *)
Theorem fallback_unreachable (s : Z) (a b : double) (w : world) :
  (1 <= s <= 4)%Z ->
  switch s <> default
  /\ ((s = 1%Z /\ switch s = case_1) \/ (s = 2%Z /\ switch s = case_2) \/
      (s = 3%Z /\ switch s = case_3) \/ (s = 4%Z /\ switch s = case_4))
  /\ (forall lab k, switch s = lab -> switch k = lab -> k = s)
  /\ (In (Put "Invalid choice") (trace (world_of (guarded_dispatch s a b w)))
      -> In (Put "Invalid choice") (trace w)).
Proof.
  intros Hs. pose proof (switch_in_range s Hs) as Hl. split; [| split; [| split]].
  - destruct Hl as [[_ E] | [[_ E] | [[_ E] | [_ E]]]]; rewrite E; discriminate.
  - exact Hl.
  - intros lab k <- Hk.
    destruct Hl as [[-> E] | [[-> E] | [[-> E] | [-> E]]]];
      rewrite E in Hk; unfold switch in Hk;
      destruct k as [| p | p]; try discriminate Hk;
      do 3 (try destruct p as [p | p |]); try discriminate Hk; reflexivity.
  - destruct (guarded_dispatch_in_range s a b w Hs) as (es & Hd & Hes).
    rewrite Hd. cbn [world_of]. rewrite in_logs_trace.
    intros [H | H]; [exact H | exfalso].
    destruct Hes as [-> | ->]; simpl in H; intuition discriminate.
Qed.

(** Without the validation the branch is live: it is what runs for 5. *)
Example fallback_on_5 (a b : double) (w : world) :
  switch 5 = default /\
  guarded_dispatch 5 a b w = Normal tt (logs invalid_choice w).
Proof.
  split; [reflexivity |].
  unfold guarded_dispatch, try_catch, dispatch, switch, bind, cout_str,
    cout_endl, emit, log, logs, invalid_choice. simpl.
  now rewrite <- app_assoc.
Qed.

(** C8 -- [divide] tests its second operand for exact equality with zero,
    with no tolerance: for every b that is not a zero, however small,
    it prints the report of a / b, and only when b is a zero (of either
    sign) does it throw instead, computing nothing. *)
Theorem divide_tests_exact_zero (a b : double) (w : world) :
  (feq b (of_int 0) = true <-> b = pos_zero \/ b = neg_zero)
  /\ (b <> pos_zero -> b <> neg_zero ->
      divide a b w = Normal tt (logs (result_line (fdiv a b)) w))
  /\ (b = pos_zero \/ b = neg_zero ->
      divide a b w = Thrown {| what := "Error! Division by zero." |} w).
Proof.
  split; [| split].
  - rewrite feq_zero_iff_is_zero. apply is_zero_cases.
  - intros Hp Hn. apply divide_nonzero.
    destruct (is_zero b) eqn:Hz; [| reflexivity].
    apply is_zero_cases in Hz. tauto.
  - intros Hz. apply divide_zero. now apply is_zero_cases.
Qed.

(** Dividing by the smallest subnormal is not an error: 1 / 2^-1074
    overflows to +infinity, and that is what is reported. *)
Example divide_by_min_subnormal (w : world) :
  divide Scenario.one min_subnormal w
  = Normal tt (logs (result_line (S754_infinity false)) w).
Proof. now rewrite divide_nonzero. Qed.

(** A NaN divisor is not equal to zero either. *)
Example divide_by_nan (a : double) (w : world) :
  divide a S754_nan w = Normal tt (logs (result_line S754_nan) w).
Proof.
  rewrite divide_nonzero by reflexivity. now destruct a.
Qed.

(** C10 -- Whenever [divide] throws, it has written nothing: the world
    at the throw is the world it was called in, so the diagnostic printed
    by the handler is all the dispatch adds to the output. *)
Theorem divide_throws_before_output
    (a b : double) (w w' : world) (e : runtime_error) :
  divide a b w = Thrown e w' ->
  w' = w
  /\ what e = "Error! Division by zero."
  /\ guarded_dispatch 4 a b w = Normal tt (logs division_error w)
  /\ stdout (world_of (guarded_dispatch 4 a b w)) = stdout w ++ division_error.
Proof.
  intros H. destruct (is_zero b) eqn:Hz.
  - rewrite divide_zero in H by assumption. injection H as <- <-.
    rewrite guarded_dispatch_zero by assumption.
    repeat split. unfold stdout, logs. cbn [world_of trace].
    now rewrite filter_app.
  - rewrite divide_nonzero in H by assumption. discriminate H.
Qed.

(** The other three operations never throw. *)
Lemma add_subtract_multiply_do_not_throw (a b : double) (w : world) :
  (exists w', add a b w = Normal tt w')
  /\ (exists w', subtract a b w = Normal tt w')
  /\ (exists w', multiply a b w = Normal tt w').
Proof.
  rewrite add_run, subtract_run, multiply_run. repeat split; eauto.
Qed.

Section Hyperproperties.

Context {X : Extractor}.

(** C9 -- A second operand of -0.0 makes [divide] throw, because
    -0.0 == 0 holds; the program then prints "Error! Division by zero."
    and sends no number to the output. *)
Theorem negative_zero_divisor :
  feq neg_zero (of_int 0) = true
  /\ (forall a w,
        divide a neg_zero w
        = Thrown {| what := "Error! Division by zero." |} w)
  /\ (forall l input,
        selector_valid input = true -> got (selector input) = 4%Z ->
        err (operand1 input) = false ->
        err (operand2 input) = false -> got (operand2 input) = neg_zero ->
        stdout (world_of (run l input))
          = menu ++ [ask_first; ask_second] ++ division_error
        /\ existsb prints_double (stdout (world_of (run l input))) = false).
Proof.
  split; [reflexivity | split].
  - intros a w. now apply divide_zero.
  - intros l input Hv G0 E1 E2 G2.
    rewrite (run_reaches_dispatch l input
               (logs division_error (at_dispatch input)) Hv E1 E2)
      by (rewrite G0, G2; now apply guarded_dispatch_zero).
    cbn [world_of]. rewrite stdout_at_dispatch. split; reflexivity.
Qed.

(** C7 -- The program is deterministic: two runs on the same input
    stream end in the same world (same output, same unread input) with the
    same exit code, whatever the uninitialised locals held in each run,
    and both runs do end. *)
Theorem run_deterministic (l1 l2 : locals) (input : list ascii) :
  run l1 input = run l2 input
  /\ stdout (world_of (run l1 input)) = stdout (world_of (run l2 input))
  /\ value_of (run l1 input) = value_of (run l2 input)
  /\ exists code, value_of (run l1 input) = Some code.
Proof.
  assert (E : run l1 input = run l2 input) by now rewrite !run_cases.
  rewrite <- E. repeat split.
  destruct (run_returns l1 input) as (code & w & -> & _). now exists code.
Qed.

(** X10 -- In the whole program the fallback of the switch is dead code:
    no input makes a run print "Invalid choice". *)
Lemma main_never_prints_invalid_choice (l : locals) (input : list ascii) :
  ~ In (Put "Invalid choice") (stdout (world_of (run l input))).
Proof.
  rewrite run_cases.
  destruct (selector_valid input) eqn:Hv; simpl negb; cbv iota;
    [| simpl; intuition discriminate].
  destruct (err (operand1 input)); [simpl; intuition discriminate |].
  destruct (err (operand2 input)); [simpl; intuition discriminate |].
  apply selector_valid_spec in Hv. destruct Hv as [_ Hs].
  destruct (guarded_dispatch_in_range (got (selector input))
              (got (operand1 input)) (got (operand2 input))
              (at_dispatch input) Hs) as (es & Hd & Hes).
  unfold bind. rewrite Hd. cbn [ret world_of]. rewrite stdout_at_dispatch.
  destruct Hes as [-> | ->]; simpl; intuition discriminate.
Qed.

End Hyperproperties.

(* ================================================================== *)
(** * The decimal extractor on words and numbers                       *)
(* ================================================================== *)

Module DecimalFacts.

Import Decimal.

(** A token that starts with neither a digit, a sign nor a point is
    rejected by both extractions, and none of it is consumed. *)
Lemma sign_other (c : ascii) (t : list ascii) :
  c <> "-"%char -> c <> "+"%char -> sign (c :: t) = (false, c :: t).
Proof.
  intros Hm Hp. unfold sign.
  destruct c as [[] [] [] [] [] [] [] []]; try reflexivity;
    exfalso; (now apply Hm) || (now apply Hp).
Qed.

Lemma digits_stop (acc cnt : Z) (c : ascii) (t : list ascii) :
  digit c = None -> digits acc cnt (c :: t) = (acc, cnt, c :: t).
Proof. intros H. simpl. now rewrite H. Qed.

Lemma scan_int_rejects_word (s : list ascii) (c : ascii) (t : list ascii) :
  skipws s = c :: t ->
  digit c = None -> c <> "-"%char -> c <> "+"%char ->
  scan_int s = {| got := 0; err := true; rest := c :: t |}.
Proof.
  intros Hs Hd Hm Hp. unfold scan_int.
  rewrite Hs, sign_other, digits_stop by assumption. reflexivity.
Qed.

Lemma scan_double_rejects_word (s : list ascii) (c : ascii) (t : list ascii) :
  skipws s = c :: t ->
  digit c = None -> c <> "-"%char -> c <> "+"%char -> c <> "."%char ->
  scan_double s = {| got := S754_zero false; err := true; rest := c :: t |}.
Proof.
  intros Hs Hd Hm Hp Hdot. unfold scan_double.
  rewrite Hs, sign_other, digits_stop by assumption.
  destruct c as [[] [] [] [] [] [] [] []]; try reflexivity.
  exfalso. now apply Hdot.
Qed.

(** End of input is a failure too. *)
Lemma scan_at_end_of_input (s : list ascii) :
  skipws s = [] ->
  err (scan_int s) = true /\ err (scan_double s) = true.
Proof.
  intros Hs. unfold scan_int, scan_double. rewrite Hs. split; reflexivity.
Qed.

Example scan_int_4 : scan_int (typed ["4"; "10"])
  = {| got := 4; err := false; rest := typed [""; "10"] |}.
Proof. reflexivity. Qed.

Example scan_int_overflow :
  got (scan_int (typed ["2147483648"])) = INT_MAX
  /\ err (scan_int (typed ["2147483648"])) = true.
Proof. split; reflexivity. Qed.

Example scan_double_2p5 :
  scan_double (typed ["2.5"])
  = {| got := Scenario.two_and_a_half; err := false; rest := [newline] |}.
Proof. reflexivity. Qed.

Example scan_double_tenth :
  got (scan_double (typed ["0.1"]))
  = S754_finite false 7205759403792794 (-56).
Proof. reflexivity. Qed.

Example scan_double_min_subnormal :
  got (scan_double (typed ["4.9e-324"])) = min_subnormal.
Proof. vm_compute. reflexivity. Qed.

Example scan_double_neg_zero :
  got (scan_double (typed ["-0.0"])) = neg_zero.
Proof. reflexivity. Qed.

Example scan_double_values_well_formed :
  forallb (fun t => well_formed (got (scan_double (typed [t]))))
          ["3"; "2.5"; "0.1"; "-0.0"; "1e22"; "6.02e23"; "4.9e-324"] = true.
Proof. vm_compute. reflexivity. Qed.

End DecimalFacts.

(* ================================================================== *)
(** * The program on concrete inputs                                   *)
(* ================================================================== *)

Module Runs.

Import Decimal Scenario.

#[local] Existing Instance Decimal.extractor.

Lemma four_in_range : (1 <= 4 <= 4)%Z.
Proof. lia. Qed.

(** The sessions listed with the testable properties. *)
Example session_add :
  run garbage add_2_3
  = Normal 0%Z (logs (result_line five) (at_dispatch add_2_3)).
Proof. reflexivity. Qed.

Example session_subtract :
  stdout (world_of (run garbage sub_5_3))
  = menu ++ [ask_first; ask_second] ++ result_line two.
Proof. reflexivity. Qed.

Example session_multiply :
  stdout (world_of (run garbage mul_4_2p5))
  = menu ++ [ask_first; ask_second] ++ result_line ten.
Proof. reflexivity. Qed.

Example session_divide_by_zero :
  stdout (world_of (run garbage div_10_0))
  = menu ++ [ask_first; ask_second] ++ division_error.
Proof. reflexivity. Qed.

Example session_choice_5 :
  stdout (world_of (run garbage choice_5)) = menu ++ invalid_input.
Proof. reflexivity. Qed.

Example session_first_abc :
  stdout (world_of (run garbage first_abc))
  = menu ++ [ask_first] ++ invalid_input.
Proof. reflexivity. Qed.

(** A divisor as small as a double gets is divided by. *)
Example session_divide_by_tiny :
  stdout (world_of (run garbage div_1_tiny))
  = menu ++ [ask_first; ask_second] ++ result_line (S754_infinity false).
Proof. vm_compute. reflexivity. Qed.

Lemma valid_run_prints_result_witness :
  stdout (world_of (run garbage div_10_4))
    = menu ++ [ask_first; ask_second] ++ result_line two_and_a_half
  /\ result_lines (stdout (world_of (run garbage div_10_4))) = 1%nat
  /\ expected 4 ten four = two_and_a_half
  /\ value_of (run garbage div_10_4) = Some 0%Z.
Proof.
  pose proof (valid_run_prints_result garbage div_10_4 4 ten four
                eq_refl eq_refl four_in_range
                eq_refl eq_refl eq_refl eq_refl eq_refl eq_refl
                (fun _ => eq_refl)) as (H1 & H2 & _ & _ & _ & _ & H3).
  repeat split; assumption || reflexivity.
Defined.

Lemma division_by_zero_reported_witness :
  stdout (world_of (run garbage div_10_0))
    = menu ++ [ask_first; ask_second] ++ division_error
  /\ result_lines (stdout (world_of (run garbage div_10_0))) = 0%nat.
Proof.
  apply (division_by_zero_reported garbage div_10_0); reflexivity.
Defined.

Lemma exit_codes_witness :
  value_of (run garbage add_2_3) = Some 0%Z
  /\ value_of (run garbage choice_5) = Some 1%Z
  /\ value_of (run garbage second_abc) = Some 1%Z
  /\ value_of (run garbage div_10_0) = Some 0%Z.
Proof.
  split; [| split; [| split]].
  - apply (proj1 (exit_codes garbage add_2_3)). vm_compute. discriminate.
  - apply (proj1 (proj2 (exit_codes garbage choice_5))). reflexivity.
  - apply (proj1 (proj2 (exit_codes garbage second_abc))). reflexivity.
  - apply (proj2 (proj2 (exit_codes garbage div_10_0))); reflexivity.
Defined.

Lemma invalid_selector_stops_witness :
  (stdout (world_of (run garbage choice_5)) = menu ++ invalid_input
   /\ reads (world_of (run garbage choice_5)) = [ReadInt]
   /\ rdbuf (cin (world_of (run garbage choice_5))) = typed [""; "1"; "2"])
  /\ (stdout (world_of (run garbage choice_word)) = menu ++ invalid_input
      /\ reads (world_of (run garbage choice_word)) = [ReadInt]
      /\ rdbuf (cin (world_of (run garbage choice_word))) = choice_word).
Proof.
  split.
  - destruct (invalid_selector_stops garbage choice_5) as (H1 & H2 & H3 & _).
    + right. right. reflexivity.
    + repeat split; assumption.
  - destruct (invalid_selector_stops garbage choice_word) as (H1 & H2 & H3 & _).
    + left. reflexivity.
    + repeat split; assumption.
Defined.

Lemma invalid_operand_stops_witness :
  (stdout (world_of (run garbage first_abc))
     = menu ++ [ask_first] ++ invalid_input
   /\ reads (world_of (run garbage first_abc)) = [ReadInt; ReadDouble])
  /\ (stdout (world_of (run garbage second_abc))
        = menu ++ [ask_first; ask_second] ++ invalid_input
      /\ value_of (run garbage second_abc) = Some 1%Z).
Proof.
  split.
  - destruct (invalid_operand_stops garbage first_abc) as [Hfirst _];
      [reflexivity |].
    destruct Hfirst as (H1 & H2 & _); [reflexivity |].
    split; assumption.
  - destruct (invalid_operand_stops garbage second_abc) as [_ Hsecond];
      [reflexivity |].
    destruct Hsecond as (H1 & _ & _ & H4); [reflexivity | reflexivity |].
    split; assumption.
Defined.

Lemma fallback_unreachable_witness :
  switch 4 = case_4
  /\ (In (Put "Invalid choice")
         (trace (world_of (guarded_dispatch 4 ten pos_zero idle))) -> False).
Proof.
  destruct (fallback_unreachable 4 ten pos_zero idle
              four_in_range)
    as (_ & Hl & _ & Hn).
  split.
  - destruct Hl as [[E _] | [[E _] | [[E _] | [_ E]]]];
      [discriminate E | discriminate E | discriminate E | exact E].
  - intros H. exact (Hn H).
Defined.

Lemma divide_tests_exact_zero_witness :
  divide one min_subnormal idle
    = Normal tt (logs (result_line (fdiv one min_subnormal)) idle)
  /\ divide one neg_zero idle
     = Thrown {| what := "Error! Division by zero." |} idle.
Proof.
  split.
  - apply (proj1 (proj2 (divide_tests_exact_zero one min_subnormal idle)));
      discriminate.
  - apply (proj2 (proj2 (divide_tests_exact_zero one neg_zero idle))).
    right. reflexivity.
Defined.

Lemma negative_zero_divisor_witness :
  stdout (world_of (run garbage div_1_neg0))
    = menu ++ [ask_first; ask_second] ++ division_error
  /\ existsb prints_double (stdout (world_of (run garbage div_1_neg0))) = false.
Proof.
  apply (proj2 (proj2 negative_zero_divisor) garbage div_1_neg0); reflexivity.
Defined.

Lemma divide_throws_before_output_witness :
  guarded_dispatch 4 ten pos_zero idle = Normal tt (logs division_error idle)
  /\ stdout (world_of (guarded_dispatch 4 ten pos_zero idle)) = division_error.
Proof.
  destruct (divide_throws_before_output ten pos_zero idle idle
              {| what := "Error! Division by zero." |} eq_refl)
    as (_ & _ & H1 & H2).
  split; assumption.
Defined.

(** Two runs on one input agree although their locals started out
    different. *)
Example same_input_same_run :
  run garbage mul_4_2p5 = run other_garbage mul_4_2p5.
Proof. reflexivity. Qed.

End Runs.

(* ================================================================== *)
(** * Arithmetic of the four operations                                *)
(* ================================================================== *)

Lemma shr_1_nonneg (mrs : shr_record) : 0 <= shr_m mrs -> 0 <= shr_m (shr_1 mrs).
Proof.
  destruct mrs as [m r s]. simpl.
  destruct m as [| [p | p |] | p]; simpl; lia.
Qed.

Lemma iter_shr_1_nonneg (p : positive) (mrs : shr_record) :
  0 <= shr_m mrs -> 0 <= shr_m (iter_pos shr_1 p mrs).
Proof.
  revert mrs. induction p as [p IH | p IH |]; intros mrs H; simpl.
  - apply IH, IH, shr_1_nonneg, H.
  - apply IH, IH, H.
  - apply shr_1_nonneg, H.
Qed.

Lemma shr_nonneg (mrs : shr_record) (e n : Z) :
  0 <= shr_m mrs -> 0 <= shr_m (fst (shr mrs e n)).
Proof.
  intros H. unfold shr. destruct n; simpl; auto using iter_shr_1_nonneg.
Qed.

Lemma shr_fexp_nonneg (m e : Z) (l : location) :
  0 <= m -> 0 <= shr_m (fst (shr_fexp prec emax m e l)).
Proof.
  intros H. unfold shr_fexp. apply shr_nonneg.
  destruct l as [| []]; exact H.
Qed.

Lemma round_nearest_even_nonneg (m : Z) (l : location) :
  0 <= m -> 0 <= round_nearest_even m l.
Proof.
  intros H. unfold round_nearest_even.
  destruct l as [| []]; try destruct (Z.even m); lia.
Qed.

Lemma binary_round_aux_not_nan (sx : bool) (mx ex : Z) (lx : location) :
  0 <= mx -> is_nan (binary_round_aux prec emax sx mx ex lx) = false.
Proof.
  intros H. unfold binary_round_aux.
  pose proof (shr_fexp_nonneg mx ex lx H) as H1.
  destruct (shr_fexp prec emax mx ex lx) as [mrs' e']. simpl in H1.
  pose proof (shr_fexp_nonneg
                (round_nearest_even (shr_m mrs') (loc_of_shr_record mrs'))
                e' loc_Exact (round_nearest_even_nonneg _ _ H1)) as H2.
  destruct (shr_fexp prec emax _ e' loc_Exact) as [mrs'' e'']. simpl in H2.
  destruct (shr_m mrs'') as [| p | p]; try reflexivity.
  - now destruct (Z.leb e'' (emax - prec)).
  - lia.
Qed.

Lemma binary_normalize_not_nan (m e : Z) (sz : bool) :
  is_nan (binary_normalize prec emax m e sz) = false.
Proof.
  unfold binary_normalize, binary_round.
  destruct m as [| p | p]; try reflexivity;
    destruct (shl_align _ _ _) as [mz ez];
    apply binary_round_aux_not_nan; lia.
Qed.

Lemma fadd_finite_not_nan (x y : double) :
  is_finite x = true -> is_finite y = true -> is_nan (fadd x y) = false.
Proof.
  unfold fadd, SFadd.
  destruct x as [sx | sx | | sx mx ex], y as [sy | sy | | sy my ey];
    try discriminate; intros _ _; try reflexivity.
  - now destruct sx, sy.
  - apply binary_normalize_not_nan.
Qed.

Lemma fsub_finite_not_nan (x y : double) :
  is_finite x = true -> is_finite y = true -> is_nan (fsub x y) = false.
Proof.
  unfold fsub, SFsub.
  destruct x as [sx | sx | | sx mx ex], y as [sy | sy | | sy my ey];
    try discriminate; intros _ _; try reflexivity.
  - now destruct sx, sy.
  - apply binary_normalize_not_nan.
Qed.

Lemma fmul_finite_not_nan (x y : double) :
  is_finite x = true -> is_finite y = true -> is_nan (fmul x y) = false.
Proof.
  unfold fmul, SFmul.
  destruct x as [sx | sx | | sx mx ex], y as [sy | sy | | sy my ey];
    try discriminate; intros _ _; try reflexivity.
  apply binary_round_aux_not_nan. lia.
Qed.

Lemma fdiv_finite_not_nan (x y : double) :
  is_finite x = true -> is_finite y = true -> is_zero y = false ->
  is_nan (fdiv x y) = false.
Proof.
  unfold fdiv, SFdiv.
  destruct x as [sx | sx | | sx mx ex], y as [sy | sy | | sy my ey];
    try discriminate; intros _ _ _; try reflexivity.
  unfold SFdiv_core_binary.
  set (s := _ - _ - _).
  set (m' := match s with Z0 => _ | Zpos _ => _ | Zneg _ => _ end).
  assert (Hm : 0 <= m').
  { unfold m'. destruct s; try lia. apply Z.shiftl_nonneg. lia. }
  pose proof (Z.div_pos m' (Zpos my) Hm ltac:(lia)) as Hq.
  unfold Z.div in Hq. destruct (Z.div_eucl m' (Z.pos my)) as [q r].
  apply binary_round_aux_not_nan. exact Hq.
Qed.

(* ================================================================== *)
(** * Every run, classified                                            *)
(* ================================================================== *)

Section MoreOutcomes.

Context {X : Extractor}.

(** The world a complete run ends in, for the report the dispatch added. *)
Lemma run_complete (l : locals) (input : list ascii) :
  parse_failure input = false ->
  exists es,
    run l input = Normal 0%Z (logs es (at_dispatch input)) /\
    guarded_dispatch (got (selector input)) (got (operand1 input))
      (got (operand2 input)) (at_dispatch input)
    = Normal tt (logs es (at_dispatch input)) /\
    (es = result_line (expected (got (selector input)) (got (operand1 input))
                                (got (operand2 input)))
     \/ es = division_error).
Proof.
  unfold parse_failure. rewrite !orb_false_iff, negb_false_iff.
  intros [[Hv E1] E2].
  pose proof (proj1 (selector_valid_spec input) Hv) as [_ Hs].
  destruct (guarded_dispatch_in_range (got (selector input))
              (got (operand1 input)) (got (operand2 input))
              (at_dispatch input) Hs) as (es & Hd & Hes).
  exists es. split; [| split]; try assumption.
  now apply run_reaches_dispatch.
Qed.

(** A run that rejects a token ends in one of the three stopped worlds. *)
Lemma run_rejected (l : locals) (input : list ascii) :
  parse_failure input = true ->
  run l input = Normal 1%Z (stopped_at_selector input)
  \/ run l input = Normal 1%Z (stopped_at_first input)
  \/ run l input = Normal 1%Z (stopped_at_second input).
Proof.
  unfold parse_failure. rewrite run_cases.
  destruct (selector_valid input); simpl; auto.
  destruct (err (operand1 input)); simpl; auto.
  destruct (err (operand2 input)); simpl; auto. discriminate.
Qed.

(** X1 -- The exit code is 1 exactly when a token the program gets to
    read is rejected, and 0 exactly when all three are accepted. *)
Theorem exit_code_characterised (l : locals) (input : list ascii) :
  (value_of (run l input) = Some 1%Z <-> parse_failure input = true)
  /\ (value_of (run l input) = Some 0%Z <-> parse_failure input = false).
Proof.
  destruct (parse_failure input) eqn:Hp.
  - destruct (run_rejected l input Hp) as [-> | [-> | ->]];
      simpl; intuition congruence.
  - destruct (run_complete l input Hp) as (es & -> & _).
    simpl. intuition congruence.
Qed.

(** X2 -- "Invalid input" is printed exactly in the runs that end with
    exit code 1. *)
Theorem invalid_input_iff_exit_1 (l : locals) (input : list ascii) :
  In (Put "Invalid input") (stdout (world_of (run l input)))
  <-> value_of (run l input) = Some 1%Z.
Proof.
  destruct (parse_failure input) eqn:Hp.
  - destruct (run_rejected l input Hp) as [-> | [-> | ->]];
      simpl; intuition congruence.
  - destruct (run_complete l input Hp) as (es & -> & _ & Hes).
    cbn [world_of value_of]. rewrite stdout_at_dispatch.
    split; [| discriminate].
    destruct Hes as [-> | ->]; simpl; intuition discriminate.
Qed.

(** X3 -- Every run prints the menu, then the prompts of the operands it
    got to ask for, then exactly one report: "Invalid input", the division
    diagnostic, or a result; the output ends with that report. *)
Theorem one_report_per_run (l : locals) (input : list ascii) :
  exists asked report,
    stdout (world_of (run l input)) = menu ++ asked ++ report
    /\ (asked = [] \/ asked = [ask_first] \/ asked = [ask_first; ask_second])
    /\ (report = invalid_input \/ report = division_error
        \/ exists v, report = result_line v).
Proof.
  destruct (parse_failure input) eqn:Hp.
  - destruct (run_rejected l input Hp) as [-> | [-> | ->]].
    + exists [], invalid_input. auto.
    + exists [ask_first], invalid_input. auto.
    + exists [ask_first; ask_second], invalid_input. auto 6.
  - destruct (run_complete l input Hp) as (es & -> & _ & Hes).
    exists [ask_first; ask_second], es.
    cbn [world_of]. rewrite stdout_at_dispatch.
    destruct Hes as [-> | ->]; repeat split; eauto 6.
Qed.

(** X4 -- A run attempts one, two or three extractions, always the
    selector first and then the operands in order, and it leaves [cin] as
    its last extraction left it: the same unread input, the same failbit. *)
Theorem extractions_in_order (l : locals) (input : list ascii) :
  (reads (world_of (run l input)) = [ReadInt]
   /\ cin (world_of (run l input)) = left_by (selector input))
  \/ (reads (world_of (run l input)) = [ReadInt; ReadDouble]
      /\ cin (world_of (run l input)) = left_by (operand1 input))
  \/ (reads (world_of (run l input)) = [ReadInt; ReadDouble; ReadDouble]
      /\ cin (world_of (run l input)) = left_by (operand2 input)).
Proof.
  unfold left_by. rewrite run_cases.
  destruct (selector_valid input) eqn:Hv; simpl negb; cbv iota;
    [| left; split; reflexivity].
  destruct (err (operand1 input)) eqn:E1;
    [right; left; split; reflexivity |].
  destruct (err (operand2 input)) eqn:E2;
    [right; right; split; reflexivity |].
  destruct (guarded_dispatch_total (got (selector input))
              (got (operand1 input)) (got (operand2 input))
              (at_dispatch input)) as (es & Hd & Hes).
  unfold bind. rewrite Hd. right. right.
  destruct Hes as [-> | [-> | ->]]; split; reflexivity.
Qed.

End MoreOutcomes.

Section MoreOutcomes2.

Context {X : Extractor}.

(** X5 -- For the selectors 1, 2 and 3 every pair of accepted operands
    gets a result: a zero (or infinite, or NaN) second operand is special
    to divide only. *)
Theorem any_operands_for_add_subtract_multiply
    (l : locals) (input : list ascii) :
  selector_valid input = true -> got (selector input) <> 4%Z ->
  err (operand1 input) = false -> err (operand2 input) = false ->
  stdout (world_of (run l input))
    = menu ++ [ask_first; ask_second]
        ++ result_line (expected (got (selector input)) (got (operand1 input))
                                 (got (operand2 input)))
  /\ value_of (run l input) = Some 0%Z.
Proof.
  intros Hv Hs E1 E2.
  pose proof (proj1 (selector_valid_spec input) Hv) as [_ Hr].
  rewrite (run_reaches_dispatch l input
             (logs (result_line (expected (got (selector input))
                      (got (operand1 input)) (got (operand2 input))))
                   (at_dispatch input)) Hv E1 E2)
    by (apply guarded_dispatch_result; [assumption | contradiction]).
  cbn [world_of value_of]. rewrite stdout_at_dispatch. split; reflexivity.
Qed.

(** X6 -- A run prints at most one result report, and prints one exactly
    when all three tokens are accepted and the run is not a division by a
    zero. *)
Theorem result_printed_iff (l : locals) (input : list ascii) :
  result_lines (stdout (world_of (run l input))) =
    if negb (parse_failure input)
       && negb ((got (selector input) =? 4)%Z
                && is_zero (got (operand2 input)))
    then 1%nat else 0%nat.
Proof.
  destruct (parse_failure input) eqn:Hp; simpl negb; cbv iota.
  - destruct (run_rejected l input Hp) as [-> | [-> | ->]]; reflexivity.
  - destruct (run_complete l input Hp) as (es & -> & Hd & _).
    cbn [world_of]. rewrite stdout_at_dispatch.
    assert (Hr : (1 <= got (selector input) <= 4)%Z).
    { unfold parse_failure in Hp. rewrite !orb_false_iff, negb_false_iff in Hp.
      now apply selector_valid_spec. }
    destruct (Z.eqb_spec (got (selector input)) 4) as [E | E];
      [destruct (is_zero (got (operand2 input))) eqn:Hz |]; simpl andb; cbv iota.
    + rewrite E, guarded_dispatch_zero in Hd by assumption.
      injection Hd as Hd. now subst es.
    + rewrite guarded_dispatch_result in Hd by auto.
      injection Hd as Hd. now subst es.
    + rewrite guarded_dispatch_result in Hd by (auto; contradiction).
      injection Hd as Hd. now subst es.
Qed.

(** X7 -- The division diagnostic is printed exactly when all three
    tokens are accepted, the selector is 4 and the second operand is a
    zero. *)
Theorem division_error_only_from_divide (l : locals) (input : list ascii) :
  In (Put "Error! Division by zero.") (stdout (world_of (run l input)))
  <-> parse_failure input = false /\ got (selector input) = 4%Z
      /\ is_zero (got (operand2 input)) = true.
Proof.
  destruct (parse_failure input) eqn:Hp.
  - destruct (run_rejected l input Hp) as [-> | [-> | ->]];
      simpl; intuition discriminate.
  - destruct (run_complete l input Hp) as (es & -> & Hd & _).
    cbn [world_of]. rewrite stdout_at_dispatch.
    assert (Hr : (1 <= got (selector input) <= 4)%Z).
    { unfold parse_failure in Hp. rewrite !orb_false_iff, negb_false_iff in Hp.
      now apply selector_valid_spec. }
    destruct (Z.eq_dec (got (selector input)) 4) as [E | E];
      [destruct (is_zero (got (operand2 input))) eqn:Hz |].
    + rewrite E, guarded_dispatch_zero in Hd by assumption.
      injection Hd as Hd. subst es.
      simpl. intuition.
    + rewrite guarded_dispatch_result in Hd by auto.
      injection Hd as Hd. subst es.
      simpl. intuition discriminate.
    + rewrite guarded_dispatch_result in Hd by (auto; contradiction).
      injection Hd as Hd. subst es.
      simpl. intuition discriminate.
Qed.

End MoreOutcomes2.

(** X8 -- The switch throws exactly for selector 4 with a zero divisor;
    wrapped in its try/catch it never lets an exception out, whatever the
    selector, and it does not touch [cin]. *)
Theorem dispatch_throws_only_on_zero_divisor
    (s : Z) (a b : double) (w : world) :
  ((exists e w', dispatch s a b w = Thrown e w')
   <-> s = 4%Z /\ is_zero b = true)
  /\ value_of (guarded_dispatch s a b w) = Some tt
  /\ cin (world_of (guarded_dispatch s a b w)) = cin w.
Proof.
  split.
  - split.
    + intros (e & w' & H). unfold dispatch in H.
      destruct (in_range_dec s) as [Hs | Hs].
      * destruct (switch_in_range s Hs)
          as [[-> E] | [[-> E] | [[-> E] | [-> E]]]]; rewrite E in H.
        -- rewrite add_run in H. discriminate H.
        -- rewrite subtract_run in H. discriminate H.
        -- rewrite multiply_run in H. discriminate H.
        -- split; [reflexivity |]. destruct (is_zero b) eqn:Hz; [reflexivity |].
           rewrite divide_nonzero in H by assumption. discriminate H.
      * rewrite (switch_out_of_range s Hs) in H. discriminate H.
    + intros [-> Hz]. unfold dispatch, switch.
      rewrite divide_zero by assumption. eauto.
  - destruct (guarded_dispatch_total s a b w) as (es & -> & _).
    split; reflexivity.
Qed.

(** X9 -- For a selector outside 1..4 the switch takes the default
    label, and the statement prints "Invalid choice" and nothing else,
    without throwing. *)
Theorem fallback_prints_invalid_choice (s : Z) (a b : double) (w : world) :
  ~ (1 <= s <= 4)%Z ->
  switch s = default
  /\ guarded_dispatch s a b w = Normal tt (logs invalid_choice w).
Proof.
  intros Hs. split; [now apply switch_out_of_range |].
  unfold guarded_dispatch, try_catch, dispatch.
  rewrite (switch_out_of_range s Hs).
  unfold bind, cout_str, cout_endl, emit, log, logs, invalid_choice. simpl.
  now rewrite <- app_assoc.
Qed.



(** X13 -- Subtracting a finite number from itself prints +0, never -0
    and never a rounding residue. *)
Theorem subtract_self (a : double) (w : world) :
  is_finite a = true ->
  subtract a a w = Normal tt (logs (result_line pos_zero) w).
Proof.
  intros H. rewrite subtract_run. do 3 f_equal.
  unfold fsub, SFsub.
  destruct a as [[|] | | | s m e]; try discriminate H; try reflexivity.
  now rewrite Z.sub_diag.
Qed.


(** X15 -- With a validated selector and finite operands the dispatch
    never reports a NaN: it prints the division diagnostic or a result that
    is a number (possibly an infinity, on overflow).  The one finite case
    where IEEE division gives NaN, 0/0, is the one [divide] throws on. *)
Theorem finite_operands_never_nan (s : Z) (a b : double) (w : world) :
  (1 <= s <= 4)%Z -> is_finite a = true -> is_finite b = true ->
  guarded_dispatch s a b w = Normal tt (logs division_error w)
  \/ exists v, guarded_dispatch s a b w = Normal tt (logs (result_line v) w)
               /\ is_nan v = false.
Proof.
  intros Hs Ha Hb.
  destruct (is_zero b) eqn:Hz.
  - destruct (switch_in_range s Hs)
      as [[-> _] | [[-> _] | [[-> _] | [-> _]]]].
    + right. exists (fadd a b).
      split; [now apply guarded_dispatch_result | now apply fadd_finite_not_nan].
    + right. exists (fsub a b).
      split; [now apply guarded_dispatch_result | now apply fsub_finite_not_nan].
    + right. exists (fmul a b).
      split; [now apply guarded_dispatch_result | now apply fmul_finite_not_nan].
    + left. now apply guarded_dispatch_zero.
  - right. exists (expected s a b).
    split; [apply guarded_dispatch_result; auto |].
    destruct (switch_in_range s Hs)
      as [[-> _] | [[-> _] | [[-> _] | [-> _]]]]; simpl expected.
    + now apply fadd_finite_not_nan.
    + now apply fsub_finite_not_nan.
    + now apply fmul_finite_not_nan.
    + now apply fdiv_finite_not_nan.
Qed.

Module MoreRuns.

Import Decimal Scenario.

#[local] Existing Instance Decimal.extractor.

Lemma zero_out_of_range : ~ (1 <= 0 <= 4)%Z.
Proof. lia. Qed.

Lemma any_operands_for_add_subtract_multiply_witness :
  stdout (world_of (run garbage (typed ["3"; "4"; "0"])))
    = menu ++ [ask_first; ask_second] ++ result_line pos_zero
  /\ value_of (run garbage (typed ["3"; "4"; "0"])) = Some 0%Z.
Proof.
  refine (any_operands_for_add_subtract_multiply
            garbage (typed ["3"; "4"; "0"]) eq_refl _ eq_refl eq_refl).
  discriminate.
Defined.

Lemma fallback_prints_invalid_choice_witness :
  switch 0 = default
  /\ guarded_dispatch 0 one two idle = Normal tt (logs invalid_choice idle).
Proof.
  exact (fallback_prints_invalid_choice 0 one two idle zero_out_of_range).
Defined.

Lemma subtract_self_witness :
  subtract ten ten idle = Normal tt (logs (result_line pos_zero) idle).
Proof.
  exact (subtract_self ten idle eq_refl).
Defined.

Lemma finite_operands_never_nan_witness :
  guarded_dispatch 4 ten four idle = Normal tt (logs division_error idle)
  \/ exists v,
       guarded_dispatch 4 ten four idle = Normal tt (logs (result_line v) idle)
       /\ is_nan v = false.
Proof.
  exact (finite_operands_never_nan 4 ten four idle Runs.four_in_range
           eq_refl eq_refl).
Defined.

End MoreRuns.

Section Interaction.

Context {X : Extractor}.


End Interaction.
